(** * Switch: a shallow embedding of
      packages/@headlessui-react/src/components/switch/switch.tsx

    The component functions [GroupFn] and [SwitchFn] are read as what they
    compute in one render: the props they hand to their element, the event
    handlers they attach and the effect they schedule.  An event handler is
    the list of actions it performs, in program order; the actions are then
    interpreted against the state of the mounted instance. *)

From stdpp Require Import base option list strings gmap fin_maps.

Open Scope string_scope.

(** ** JavaScript values and objects *)

(** The handlers a Switch attaches to its element. *)
Inductive HandlerName := HandleClick | HandleKeyUp | HandleKeyPress.

(** The values that occur in the props objects of this file. *)
Inductive JsValue :=
| JUndefined
| JBool (b : bool)
| JNum (n : Z)
| JStr (s : string)
| JHandler (h : HandlerName)
| JRef.

#[global] Instance HandlerName_eq_dec : EqDecision HandlerName.
Proof. solve_decision. Defined.

#[global] Instance JsValue_eq_dec : EqDecision JsValue.
Proof. solve_decision. Defined.

(** A props object: property names to values.  A property can be bound to
    [JUndefined], as in the literal [{ value }] when [value] is undefined. *)
Abbreviation Object := (gmap string JsValue).

(** [x] of type [string | undefined] as a value. *)
Definition of_optional (x : option string) : JsValue :=
  match x with
  | Some s => JStr s
  | None => JUndefined
  end.

(** ** DOM vocabulary *)

Record Element := {
  el_id : string;                (* element.id *)
  tagName : string;              (* element.tagName, upper case in HTML *)
  el_disabled : bool;            (* element.disabled *)
  el_form : option string        (* element.closest('form'), by id *)
}.

Record MouseEvent := { currentTarget : Element }.

Record KeyboardEvent := { key : string; key_currentTarget : Element }.

(** The actions a handler of this file can perform. *)
Inductive Effect :=
| PreventDefault                                  (* event.preventDefault() *)
| OnChange (v : bool)                             (* onChange(v), useControllable's callback *)
| AttemptSubmit (el : Element)                    (* attemptSubmit(el) *)
| Click (el : Element)                            (* el.click() *)
| Focus (el : Element) (preventScroll : bool)     (* el.focus({ preventScroll }) *)
| SetSwitch (el : Element).                       (* groupContext.setSwitch(el) *)

(** The two members of [Keys] (../keyboard) the component reads. *)
Record KeysT := { Space : string; Enter : string }.

(** How many times a handler called [onChange], and with what. *)
Definition onChange_calls (effs : list Effect) : list bool :=
  omap (λ e, match e with OnChange v => Some v | _ => None end) effs.

Definition is_AttemptSubmit (e : Effect) : bool :=
  match e with AttemptSubmit _ => true | _ => false end.

Definition is_Click (e : Effect) : bool :=
  match e with Click _ => true | _ => false end.

Definition is_Focus (e : Effect) : bool :=
  match e with Focus _ _ => true | _ => false end.

(** ** Group *)

(** [StateDefinition]: the value of [GroupContext].  [setSwitch] is the
    state setter; calling it is the action [SetSwitch]. *)
Record StateDefinition := {
  switch : option Element;
  labelledby : option string;
  describedby : option string
}.

(** [GroupFn]'s [useState(null)], with what [useLabels] and
    [useDescriptions] returned in this render. *)
Definition GroupFn_initial (labelledby describedby : option string) : StateDefinition :=
  {| switch := None; labelledby := labelledby; describedby := describedby |}.

Definition setSwitchElement (el : Element) (g : StateDefinition) : StateDefinition :=
  {| switch := Some el; labelledby := labelledby g; describedby := describedby g |}.

(** [htmlFor: context.switch?.id] *)
Definition Label_htmlFor (context : StateDefinition) : option string :=
  el_id <$> switch context.

(** The [onClick] handed to [LabelProvider]. *)
Definition Label_onClick (switchElement : option Element) (event : MouseEvent)
  : list Effect :=
  match switchElement with
  | None => []                                          (* if (!switchElement) return *)
  | Some el =>
      (if String.eqb (tagName (currentTarget event)) "LABEL"
       then [PreventDefault] else [])
      ++ [Click el; Focus el true]
  end.

(** The group's state after the actions of a handler or of a ref callback. *)
Definition group_run (g : StateDefinition) (effs : list Effect) : StateDefinition :=
  foldl (λ g e, match e with SetSwitch el => setSwitchElement el g | _ => g end) g effs.

(** ** Switch *)

Definition DEFAULT_SWITCH_TAG : string := "button".

Definition SwitchPropsWeControl : list string :=
  ["aria-checked"; "aria-describedby"; "aria-labelledby"; "role"; "tabIndex"].

(** What is rendered: the hidden input and the element of [render]. *)
Inductive Node :=
| HiddenNode (props : Object)                          (* <Hidden features={Hidden} {...props} /> *)
| ElementNode (tag : string) (props : Object) (slot_checked : bool).

Definition is_HiddenNode (n : Node) : bool :=
  match n with HiddenNode _ => true | _ => false end.

(** Modelled from the spec: [compact] of ../../utils/render is not under
    src/.  The hidden field carries [name], [value] and the checked state:
    every property bound to a value is kept, one bound to undefined is
    dropped. *)
Definition compact (o : Object) : Object :=
  filter (λ kv, kv.2 ≠ JUndefined) o.

(** Modelled from the spec: [render] of ../../utils/render is not under
    src/.  It merges the computed props with the caller's; the computed
    ones always win, and the caller may choose the element type. *)
Definition render (ourProps theirProps : Object) (slot_checked : bool)
    (defaultTag : string) : Node :=
  ElementNode
    (match theirProps !! "as" with Some (JStr t) => t | _ => defaultTag end)
    (ourProps ∪ delete "as" theirProps)
    slot_checked.

(** *** useControllable *)

Inductive Ownership := Controlled | Uncontrolled.

(** The state [useControllable] keeps for one mounted instance. *)
Record Controllable := { ownership : Ownership; internalValue : bool }.

Section Callbacks.

(** What the caller's [onChange] can act on. *)
Context {W : Type}.

(** [onChange?.(v)] *)
Definition call_optional (f : option (bool → W → W)) (v : bool) (w : W) : W :=
  match f with
  | Some g => g v w
  | None => w
  end.

(** Modelled from the spec: ../../hooks/use-controllable is not under
    src/.  Ownership is determined once, from whether the caller supplied
    a value; the default is the initial value when Uncontrolled. *)
Definition useControllable_mount (controlledValue defaultValue : option bool)
  : Controllable :=
  {| ownership := match controlledValue with Some _ => Controlled | None => Uncontrolled end;
     internalValue := default false defaultValue |}.

(** Modelled from the spec: the first component of [useControllable]'s
    result.  Controlled: the caller's value, the internal one is ignored
    (it only stands in when the caller breaks the contract and stops
    supplying a value).  Uncontrolled: the internal value. *)
Definition useControllable_value (c : Controllable) (controlledValue : option bool)
  : bool :=
  match ownership c, controlledValue with
  | Controlled, Some v => v
  | _, _ => internalValue c
  end.

(** Modelled from the spec: the second component of [useControllable]'s
    result.  Invoked on every toggle; Uncontrolled, it also updates the
    internal state; Controlled, the caller alone is responsible. *)
Definition useControllable_onChange (c : Controllable)
    (onChange : option (bool → W → W)) (v : bool) (w : W) : Controllable * W :=
  match ownership c with
  | Controlled => (c, call_optional onChange v w)
  | Uncontrolled =>
      ({| ownership := Uncontrolled; internalValue := v |}, call_optional onChange v w)
  end.

(** *** Props and instance *)

Record SwitchProps := {
  p_id : option string;
  p_checked : option bool;
  p_defaultChecked : option bool;
  p_onChange : option (bool → W → W);
  p_name : option string;
  p_value : option string;
  p_theirProps : Object                   (* ...theirProps *)
}.

(** What persists between the renders of one mounted Switch. *)
Record SwitchInstance := {
  internalId : string;                    (* useId() *)
  controllable : Controllable             (* useControllable's state *)
}.

(** An instance with an internal value and Uncontrolled ownership. *)
Definition uncontrolled_with (inst : SwitchInstance) (v : bool) : SwitchInstance :=
  {| internalId := internalId inst;
     controllable := {| ownership := Uncontrolled; internalValue := v |} |}.

(** [id = `headlessui-switch-${internalId}`] *)
Definition SwitchFn_id (props : SwitchProps) (inst : SwitchInstance) : string :=
  default ("headlessui-switch-" ++ internalId inst) (p_id props).

(** [defaultChecked = false] in the destructuring of [props]: the local as
    the JavaScript value it holds, [None] being undefined. *)
Definition defaultChecked (props : SwitchProps) : option bool :=
  match p_defaultChecked props with
  | None => Some false
  | Some b => Some b
  end.

Definition SwitchFn_mount (props : SwitchProps) (internalId : string) : SwitchInstance :=
  {| internalId := internalId;
     controllable := useControllable_mount (p_checked props) (defaultChecked props) |}.

(** [checked] of [let [checked, onChange] = useControllable(...)] *)
Definition SwitchFn_checked (props : SwitchProps) (inst : SwitchInstance) : bool :=
  useControllable_value (controllable inst) (p_checked props).

(** *** Handlers *)

Section Handlers.

(** ../../utils/bugs and ../keyboard are not under src/: the predicate
    and the key names are parameters. *)
Variable isDisabledReactIssue7711 : Element → bool.
Variable Keys : KeysT.
(** ../../hooks/use-resolve-button-type likewise. *)
Variable useResolveButtonType : SwitchProps → option string.

Definition toggle (checked : bool) : list Effect :=
  [OnChange (negb checked)].

Definition handleClick (checked : bool) (event : MouseEvent) : list Effect :=
  if isDisabledReactIssue7711 (currentTarget event)
  then [PreventDefault]
  else [PreventDefault] ++ toggle checked.

Definition handleKeyUp (checked : bool) (event : KeyboardEvent) : list Effect :=
  if String.eqb (key event) (Space Keys) then
    [PreventDefault] ++ toggle checked
  else if String.eqb (key event) (Enter Keys) then
    [AttemptSubmit (key_currentTarget event)]
  else [].

Definition handleKeyPress (event : KeyboardEvent) : list Effect :=
  [PreventDefault].

(** The [useEffect]: [None] when it returns before registering, else
    the body of the listener it registers for the form's reset. *)
Definition reset_listener (props : SwitchProps) (internalSwitchRef : option Element)
  : option (list Effect) :=
  match internalSwitchRef ≫= el_form with
  | None => None                                  (* if (!form) return *)
  | Some _ =>
      match defaultChecked props with
      | None => None                              (* if (defaultChecked === undefined) return *)
      | Some d => Some [OnChange d]               (* onChange(defaultChecked) *)
      end
  end.

(** *** Render *)

Definition ourProps (props : SwitchProps) (inst : SwitchInstance)
    (groupContext : option StateDefinition) : Object :=
  list_to_map
    [ ("id", JStr (SwitchFn_id props inst));
      ("ref", JRef);
      ("role", JStr "switch");
      ("type", of_optional (useResolveButtonType props));
      ("tabIndex", JNum 0);
      ("aria-checked", JBool (SwitchFn_checked props inst));
      ("aria-labelledby", of_optional (groupContext ≫= labelledby));
      ("aria-describedby", of_optional (groupContext ≫= describedby));
      ("onClick", JHandler HandleClick);
      ("onKeyUp", JHandler HandleKeyUp);
      ("onKeyPress", JHandler HandleKeyPress) ].

(** The object spread into [Hidden]. *)
Definition hidden_props (checked : bool) (name : string) (value : option string)
  : Object :=
  compact (list_to_map
    [ ("as", JStr "input");
      ("type", JStr "checkbox");
      ("hidden", JBool true);
      ("readOnly", JBool true);
      ("checked", JBool checked);
      ("name", JStr name);
      ("value", of_optional value) ]).

(** The fragment [SwitchFn] returns.  [theirProps] reaches [render] as the
    caller passed it: [SwitchPropsWeControl] is a type and removes nothing
    when the component runs. *)
Definition SwitchFn (props : SwitchProps) (inst : SwitchInstance)
    (groupContext : option StateDefinition) : list Node :=
  let checked := SwitchFn_checked props inst in
  (match p_name props with                        (* name != null && checked && ... *)
   | Some name =>
       if checked then [HiddenNode (hidden_props checked name (p_value props))] else []
   | None => []
   end)
  ++ [render (ourProps props inst groupContext) (p_theirProps props)
        checked DEFAULT_SWITCH_TAG].

(** [useSyncRefs(internalSwitchRef, ref, groupContext.setSwitch)] when
    the element [el] is attached. *)
Definition switchRef (groupContext : option StateDefinition) (el : Element)
  : list Effect :=
  match groupContext with
  | None => []
  | Some _ => [SetSwitch el]
  end.

(** *** The mounted instance as a state machine *)

Inductive SwitchEvent :=
| EvClick (event : MouseEvent)
| EvKeyUp (event : KeyboardEvent)
| EvKeyPress (event : KeyboardEvent)
| EvReset (internalSwitchRef : option Element).   (* the form's reset event *)

(** The handler the event reaches, closed over this render's [checked]. *)
Definition handler (props : SwitchProps) (inst : SwitchInstance) (ev : SwitchEvent)
  : list Effect :=
  let checked := SwitchFn_checked props inst in
  match ev with
  | EvClick e => handleClick checked e
  | EvKeyUp e => handleKeyUp checked e
  | EvKeyPress e => handleKeyPress e
  | EvReset r => default [] (reset_listener props r)
  end.

(** One action against the instance and the caller's world. *)
Definition run_effect (props : SwitchProps) (st : SwitchInstance * W) (e : Effect)
  : SwitchInstance * W :=
  match e with
  | OnChange v =>
      let '(c, w) := useControllable_onChange (controllable st.1) (p_onChange props) v st.2 in
      ({| internalId := internalId st.1; controllable := c |}, w)
  | _ => st
  end.

Definition run_effects (props : SwitchProps) (st : SwitchInstance * W)
    (effs : list Effect) : SwitchInstance * W :=
  foldl (run_effect props) st effs.

(** One event; the component re-renders with the same props. *)
Definition dispatch (props : SwitchProps) (st : SwitchInstance * W) (ev : SwitchEvent)
  : SwitchInstance * W :=
  run_effects props st (handler props st.1 ev).

Definition dispatch_all (props : SwitchProps) (st : SwitchInstance * W)
    (evs : list SwitchEvent) : SwitchInstance * W :=
  foldl (dispatch props) st evs.

(** The actions of a label click reaching the Switch: [el.click()]
    dispatches a click event whose current target is [el]. *)
Definition deliver (props : SwitchProps) (st : SwitchInstance * W)
    (effs : list Effect) : SwitchInstance * W :=
  foldl (λ st e,
           match e with
           | Click el => dispatch props st (EvClick {| currentTarget := el |})
           | _ => st
           end) st effs.

End Handlers.

End Callbacks.

Arguments SwitchProps : clear implicits.


(** ** Summaries the handlers are compared with *)

(** A Switch as the two-state machine of its events: what an Uncontrolled
    Switch whose default is [d] shows after [ev] when it showed [v]. *)
Definition switch_automaton (isDisabledReactIssue7711 : Element → bool) (Keys : KeysT)
    (d v : bool) (ev : SwitchEvent) : bool :=
  match ev with
  | EvClick e => if isDisabledReactIssue7711 (currentTarget e) then v else negb v
  | EvKeyUp e => if String.eqb (key e) (Space Keys) then negb v else v
  | EvKeyPress _ => v
  | EvReset r => match r ≫= el_form with Some _ => d | None => v end
  end.

(** [b], [!b], [b], ... : [n] values. *)
Fixpoint alternate (b : bool) (n : nat) : list bool :=
  match n with
  | O => []
  | S n => b :: alternate (negb b) n
  end.


Definition is_SetSwitch (e : Effect) : bool :=
  match e with SetSwitch _ => true | _ => false end.

(** A caller that renders the Switch from its own state [w]: every event
    is handled by the render that [view w] produced. *)
Definition dispatch_rendered {W : Type} (isDisabledReactIssue7711 : Element → bool)
    (Keys : KeysT) (view : W → SwitchProps W) (st : SwitchInstance * W)
    (ev : SwitchEvent) : SwitchInstance * W :=
  dispatch isDisabledReactIssue7711 Keys (view st.2) st ev.

(** ** Concrete pages, used to run the definitions *)

(** The key names as browsers report them in [KeyboardEvent.key]. *)
Definition sample_Keys : KeysT := {| Space := " "; Enter := "Enter" |}.

Definition switch_button : Element :=
  {| el_id := "headlessui-switch-1"; tagName := "BUTTON";
     el_disabled := false; el_form := Some "signup" |}.

Definition disabled_button : Element :=
  {| el_id := "headlessui-switch-1"; tagName := "BUTTON";
     el_disabled := true; el_form := Some "signup" |}.

Definition span_label : Element :=
  {| el_id := "headlessui-label-2"; tagName := "SPAN";
     el_disabled := false; el_form := None |}.

Definition native_label : Element :=
  {| el_id := "headlessui-label-2"; tagName := "LABEL";
     el_disabled := false; el_form := None |}.

(** A caller whose world is the log of the values its [onChange] received. *)
Definition log_onChange (v : bool) (log : list bool) : list bool := log ++ [v].

Definition uncontrolled_props : SwitchProps (list bool) :=
  {| p_id := None; p_checked := None; p_defaultChecked := Some false;
     p_onChange := Some log_onChange; p_name := Some "consent";
     p_value := Some "yes"; p_theirProps := ∅ |}.

(** [<Switch checked={true} onChange={log} name="consent" role="button" />] *)
Definition controlled_props : SwitchProps (list bool) :=
  {| p_id := None; p_checked := Some true; p_defaultChecked := None;
     p_onChange := Some log_onChange; p_name := Some "consent";
     p_value := None; p_theirProps := {[ "role" := JStr "button" ]} |}.

Definition sample_group : StateDefinition :=
  {| switch := Some switch_button;
     labelledby := Some "headlessui-label-2"; describedby := None |}.

Definition button_type (props : SwitchProps (list bool)) : option string :=
  Some "button".


(** A stand-in for [isDisabledReactIssue7711]: the element's own
    [disabled] property. *)
Definition disabled_attribute (el : Element) : bool := el_disabled el.

Definition click_on (el : Element) : MouseEvent := {| currentTarget := el |}.

Definition three_clicks : list MouseEvent :=
  [click_on switch_button; click_on switch_button; click_on switch_button].

Definition space_up : KeyboardEvent := {| key := " "; key_currentTarget := switch_button |}.

Definition enter_up : KeyboardEvent := {| key := "Enter"; key_currentTarget := switch_button |}.

Definition uncontrolled_instance : SwitchInstance := SwitchFn_mount uncontrolled_props "1".

Definition controlled_instance : SwitchInstance := SwitchFn_mount controlled_props "1".

(** A group in which no Switch has mounted yet. *)
Definition empty_group : StateDefinition :=
  GroupFn_initial (Some "headlessui-label-2") None.

(** A button outside any form. *)
Definition loose_button : Element :=
  {| el_id := "headlessui-switch-7"; tagName := "BUTTON";
     el_disabled := false; el_form := None |}.

Definition tab_up : KeyboardEvent := {| key := "Tab"; key_currentTarget := switch_button |}.

Definition mixed_events : list SwitchEvent :=
  [EvClick (click_on switch_button); EvKeyUp space_up; EvKeyPress space_up;
   EvKeyUp enter_up; EvClick (click_on disabled_button); EvKeyUp space_up;
   EvReset (Some loose_button)].

(** [<Switch checked={true} />]: Controlled, and no [onChange]. *)
Definition silent_props : SwitchProps (list bool) :=
  {| p_id := Some "mute"; p_checked := Some true; p_defaultChecked := None;
     p_onChange := None; p_name := None; p_value := None; p_theirProps := ∅ |}.

(** [const [on, setOn] = useState(...)] with
    [<Switch checked={on} onChange={setOn} />]. *)
Definition echo_view (on : bool) : SwitchProps bool :=
  {| p_id := None; p_checked := Some on; p_defaultChecked := None;
     p_onChange := Some (λ v _, v); p_name := None; p_value := None;
     p_theirProps := ∅ |}.

(** * Properties *)

Create HintDb switch_unfold.

#[global] Hint Unfold dispatch run_effects handler handleClick handleKeyUp
  handleKeyPress toggle SwitchFn_checked useControllable_value
  useControllable_onChange : switch_unfold.

(** Unfold one event down to the hook, with the facts at hand. *)
Ltac step_event :=
  repeat progress
    (autounfold with switch_unfold; simpl;
     repeat match goal with
            | H : _ = _ |- _ => rewrite H; simpl
            end).

Section SwitchMachine.

Context {W : Type}.
Variable isDisabledReactIssue7711 : Element → bool.
Variable Keys : KeysT.

Implicit Types (props : SwitchProps W) (inst : SwitchInstance) (w : W).

Lemma SwitchFn_mount_uncontrolled props i :
  p_checked props = None →
  SwitchFn_mount props i
  = uncontrolled_with (SwitchFn_mount props i) (default false (defaultChecked props)).
Proof. intros H. unfold SwitchFn_mount, useControllable_mount, uncontrolled_with. by rewrite H. Qed.

Lemma SwitchFn_checked_uncontrolled props inst v :
  p_checked props = None → SwitchFn_checked props (uncontrolled_with inst v) = v.
Proof. intros H. unfold SwitchFn_checked, useControllable_value. by rewrite H. Qed.

(** A click that is not judged disabled, on an Uncontrolled instance. *)
Lemma dispatch_click_uncontrolled props inst v w e :
  p_checked props = None →
  isDisabledReactIssue7711 (currentTarget e) = false →
  dispatch isDisabledReactIssue7711 Keys props (uncontrolled_with inst v, w) (EvClick e)
  = (uncontrolled_with inst (negb v), call_optional (p_onChange props) (negb v) w).
Proof. intros Hc Hd. by step_event. Qed.

Lemma dispatch_all_clicks_uncontrolled props inst clicks : ∀ v w,
  p_checked props = None →
  Forall (λ e, isDisabledReactIssue7711 (currentTarget e) = false) clicks →
  (dispatch_all isDisabledReactIssue7711 Keys props (uncontrolled_with inst v, w)
     (EvClick <$> clicks)).1
  = uncontrolled_with inst (xorb v (Nat.odd (length clicks))).
Proof.
  induction clicks as [|e clicks IH]; intros v w Hc Hall.
  - simpl. by rewrite xorb_false_r.
  - apply Forall_cons in Hall as [He Hall].
    cbn [fmap list_fmap length]. unfold dispatch_all. cbn [foldl].
    rewrite dispatch_click_uncontrolled by done.
    fold (dispatch_all isDisabledReactIssue7711 Keys props
            (uncontrolled_with inst (negb v), call_optional (p_onChange props) (negb v) w)
            (EvClick <$> clicks)).
    rewrite IH by done. f_equal.
    rewrite Nat.odd_succ, <- Nat.negb_odd.
    by destruct v, (Nat.odd (length clicks)).
Qed.

(** C1: an Uncontrolled Switch mounted with [defaultChecked = false] is
    checked after N clicks, none of them judged disabled, exactly when N is
    odd; each such click calls [onChange(!checked)], once. *)
Theorem uncontrolled_clicks_parity props i w (clicks : list MouseEvent) :
  p_checked props = None →
  defaultChecked props = Some false →
  Forall (λ e, isDisabledReactIssue7711 (currentTarget e) = false) clicks →
  SwitchFn_checked props
    (dispatch_all isDisabledReactIssue7711 Keys props (SwitchFn_mount props i, w)
       (EvClick <$> clicks)).1
  = Nat.odd (length clicks)
  ∧ ∀ inst e, e ∈ clicks →
      handler isDisabledReactIssue7711 Keys props inst (EvClick e)
      = [PreventDefault; OnChange (negb (SwitchFn_checked props inst))].
Proof.
  intros Hc Hd Hall. split.
  - rewrite SwitchFn_mount_uncontrolled, Hd by done. simpl.
    rewrite dispatch_all_clicks_uncontrolled by done.
    by rewrite SwitchFn_checked_uncontrolled.
  - intros inst e He. rewrite Forall_forall in Hall.
    unfold handler, handleClick. by rewrite (Hall e He).
Qed.

(** C7: a click whose target is judged disabled only suppresses the default
    action: [onChange] is not called and the instance and the caller's world
    are as before. *)
Theorem disabled_click_swallowed props (st : SwitchInstance * W) e :
  isDisabledReactIssue7711 (currentTarget e) = true →
  handler isDisabledReactIssue7711 Keys props st.1 (EvClick e) = [PreventDefault]
  ∧ onChange_calls (handler isDisabledReactIssue7711 Keys props st.1 (EvClick e)) = []
  ∧ dispatch isDisabledReactIssue7711 Keys props st (EvClick e) = st.
Proof.
  intros Hd. unfold dispatch, handler, handleClick. rewrite Hd. by destruct st.
Qed.

(** C10: the key-press handler suppresses the default action whatever the
    key is, and does nothing else: it neither calls [onChange] nor attempts
    a submit, and leaves the instance and the caller's world as they were. *)
Theorem keyPress_only_prevents_default props (st : SwitchInstance * W) e :
  handler isDisabledReactIssue7711 Keys props st.1 (EvKeyPress e) = [PreventDefault]
  ∧ onChange_calls (handler isDisabledReactIssue7711 Keys props st.1 (EvKeyPress e)) = []
  ∧ filter is_AttemptSubmit (handler isDisabledReactIssue7711 Keys props st.1 (EvKeyPress e)) = []
  ∧ dispatch isDisabledReactIssue7711 Keys props st (EvKeyPress e) = st.
Proof. by destruct st. Qed.

(** A Controlled instance never changes, whatever is dispatched to it. *)
Lemma run_effects_controlled props inst w effs :
  ownership (controllable inst) = Controlled →
  (run_effects props (inst, w) effs).1 = inst.
Proof.
  intros Ho. revert w. induction effs as [|e effs IH]; intros w; [done|].
  unfold run_effects in *. cbn [foldl].
  destruct e; try apply IH.
  unfold run_effect, useControllable_onChange. cbn [fst snd]. rewrite Ho.
  destruct inst; apply IH.
Qed.

Lemma dispatch_all_controlled props inst evs : ∀ w,
  ownership (controllable inst) = Controlled →
  (dispatch_all isDisabledReactIssue7711 Keys props (inst, w) evs).1 = inst.
Proof.
  induction evs as [|ev evs IH]; intros w Ho; [done|].
  unfold dispatch_all in *. cbn [foldl].
  pose proof (run_effects_controlled props inst w
                (handler isDisabledReactIssue7711 Keys props inst ev) Ho) as Hrun.
  unfold dispatch at 2. cbn [fst].
  destruct (run_effects props (inst, w) _) as [inst' w']. simpl in Hrun. subst inst'.
  by apply IH.
Qed.

(** C2, amended: on a Controlled Switch a click that is not judged disabled
    calls [onChange(!checked)] exactly once, the hook passing it on to the
    caller's [onChange]; the instance keeps no state of its own, so what is
    rendered as checked is whatever the caller supplies in the next render:
    the same value for the same props, the new one for new props.  No
    sequence of events changes a Controlled instance. *)
Theorem controlled_click props inst w e c :
  p_checked props = Some c →
  ownership (controllable inst) = Controlled →
  isDisabledReactIssue7711 (currentTarget e) = false →
  onChange_calls (handler isDisabledReactIssue7711 Keys props inst (EvClick e)) = [negb c]
  ∧ dispatch isDisabledReactIssue7711 Keys props (inst, w) (EvClick e)
    = (inst, call_optional (p_onChange props) (negb c) w)
  ∧ SwitchFn_checked props
      (dispatch isDisabledReactIssue7711 Keys props (inst, w) (EvClick e)).1 = c
  ∧ (∀ props' c', p_checked props' = Some c' →
      SwitchFn_checked props'
        (dispatch isDisabledReactIssue7711 Keys props (inst, w) (EvClick e)).1 = c')
  ∧ ∀ evs, (dispatch_all isDisabledReactIssue7711 Keys props (inst, w) evs).1 = inst.
Proof.
  intros Hc Ho Hd.
  assert (Hstep : dispatch isDisabledReactIssue7711 Keys props (inst, w) (EvClick e)
                  = (inst, call_optional (p_onChange props) (negb c) w)).
  { step_event. by destruct inst. }
  rewrite Hstep. cbn [fst]. repeat split.
  - by step_event.
  - unfold SwitchFn_checked, useControllable_value. by rewrite Ho, Hc.
  - intros props' c' Hc'. unfold SwitchFn_checked, useControllable_value.
    by rewrite Ho, Hc'.
  - intros evs. by apply dispatch_all_controlled.
Qed.

(** C3: on key up, Space suppresses the default action and toggles
    ([onChange(!checked)], which flips an Uncontrolled Switch); Enter
    attempts a submit from the element and does not toggle; no key-up event
    does both. *)
Theorem keyUp_space_toggles_enter_submits props (st : SwitchInstance * W) e :
  Space Keys ≠ Enter Keys →
  let effs := handler isDisabledReactIssue7711 Keys props st.1 (EvKeyUp e) in
  (key e = Space Keys →
     effs = [PreventDefault; OnChange (negb (SwitchFn_checked props st.1))]
     ∧ filter is_AttemptSubmit effs = []
     ∧ (ownership (controllable st.1) = Uncontrolled →
        SwitchFn_checked props
          (dispatch isDisabledReactIssue7711 Keys props st (EvKeyUp e)).1
        = negb (SwitchFn_checked props st.1)))
  ∧ (key e = Enter Keys →
     effs = [AttemptSubmit (key_currentTarget e)]
     ∧ onChange_calls effs = []
     ∧ dispatch isDisabledReactIssue7711 Keys props st (EvKeyUp e) = st)
  ∧ ¬ (onChange_calls effs ≠ [] ∧ filter is_AttemptSubmit effs ≠ []).
Proof.
  intros Hne effs. subst effs. destruct st as [inst w]. cbn [fst].
  unfold dispatch, handler, handleKeyUp. repeat split.
  - by apply String.eqb_eq in H as ->.
  - by apply String.eqb_eq in H as ->.
  - intros Ho. apply String.eqb_eq in H as ->.
    destruct inst as [i [o v]]. simpl in Ho. subst o.
    unfold run_effects, run_effect, toggle, useControllable_onChange,
      SwitchFn_checked, useControllable_value. by simpl.
  - assert (key e ≠ Space Keys) as ->%String.eqb_neq by congruence.
    by apply String.eqb_eq in H as ->.
  - assert (key e ≠ Space Keys) as ->%String.eqb_neq by congruence.
    by apply String.eqb_eq in H as ->.
  - assert (key e ≠ Space Keys) as ->%String.eqb_neq by congruence.
    by apply String.eqb_eq in H as ->.
  - intros [Hon Hsub].
    destruct (String.eqb (key e) (Space Keys)); [by apply Hsub|].
    destruct (String.eqb (key e) (Enter Keys)); by apply Hon.
Qed.

(** The guard of the reset effect cannot fire: after the destructuring
    default the local [defaultChecked] is never undefined. *)
Lemma defaultChecked_defined props : defaultChecked props ≠ None.
Proof. unfold defaultChecked. by destruct (p_defaultChecked props). Qed.

(** Inside a form the reset listener is always registered, and it hands
    [onChange] the supplied default, or [false] when none was supplied. *)
Lemma reset_listener_registered props el f :
  el_form el = Some f →
  reset_listener props (Some el)
  = Some [OnChange (default false (p_defaultChecked props))].
Proof.
  intros Hf. unfold reset_listener, defaultChecked. simpl. rewrite Hf.
  by destruct (p_defaultChecked props).
Qed.

(** ** The label of a Group *)

Lemma Label_onClick_prevents el ev :
  PreventDefault ∈ Label_onClick (Some el) ev ↔ tagName (currentTarget ev) = "LABEL".
Proof.
  unfold Label_onClick. rewrite <- String.eqb_eq.
  destruct (String.eqb _ _); simpl; split; try done.
  - intros _. apply list_elem_of_here.
  - intros H. repeat (apply elem_of_cons in H as [H|H]; [discriminate|]).
    by apply elem_of_nil in H.
Qed.

(** C5, amended: with a Switch registered, the label's click handler
    prevents the label's default action exactly when the label is a native
    [LABEL] element; it then clicks the switch element once and focuses it
    without scrolling.  The one click reaches the Switch's click handler
    once, which calls [onChange(!checked)] once unless it judges the element
    disabled. *)
Theorem label_click_forwards_once props (st : SwitchInstance * W) el ev :
  let effs := Label_onClick (Some el) ev in
  (PreventDefault ∈ effs ↔ tagName (currentTarget ev) = "LABEL")
  ∧ filter is_Click effs = [Click el]
  ∧ filter is_Focus effs = [Focus el true]
  ∧ deliver isDisabledReactIssue7711 Keys props st effs
    = dispatch isDisabledReactIssue7711 Keys props st (EvClick {| currentTarget := el |})
  ∧ (isDisabledReactIssue7711 el = false →
     onChange_calls
       (handler isDisabledReactIssue7711 Keys props st.1
          (EvClick {| currentTarget := el |}))
     = [negb (SwitchFn_checked props st.1)]).
Proof.
  intros effs. split; [apply Label_onClick_prevents|].
  subst effs. unfold Label_onClick, deliver.
  repeat split; try by destruct (String.eqb _ _).
  intros Hd. unfold handler, handleClick. simpl. by rewrite Hd.
Qed.

(** C8: with no Switch registered the label's click handler does nothing:
    no default action is prevented, nothing is clicked or focused, and the
    group and any Switch instance are as before. *)
Theorem label_click_without_switch (g : StateDefinition) props
    (st : SwitchInstance * W) ev :
  switch g = None →
  Label_onClick (switch g) ev = []
  ∧ group_run g (Label_onClick (switch g) ev) = g
  ∧ deliver isDisabledReactIssue7711 Keys props st (Label_onClick (switch g) ev) = st.
Proof. intros ->. by repeat split. Qed.

End SwitchMachine.

(** ** What is rendered *)

Section Rendered.

Context {W : Type}.
Variable useResolveButtonType : SwitchProps W → option string.

Implicit Types (props : SwitchProps W) (inst : SwitchInstance).

Lemma compact_lookup_defined (o : Object) k v :
  o !! k = Some v → v ≠ JUndefined → compact o !! k = Some v.
Proof. intros Hk Hv. unfold compact. by apply map_lookup_filter_Some. Qed.

Lemma hidden_props_lookup checked name value :
  let o := hidden_props checked name value in
  o !! "as" = Some (JStr "input")
  ∧ o !! "type" = Some (JStr "checkbox")
  ∧ o !! "hidden" = Some (JBool true)
  ∧ o !! "readOnly" = Some (JBool true)
  ∧ o !! "checked" = Some (JBool checked)
  ∧ o !! "name" = Some (JStr name)
  ∧ o !! "value" = JStr <$> value.
Proof.
  unfold hidden_props. cbn [list_to_map foldr uncurry fst snd].
  repeat split;
    try (apply compact_lookup_defined; [by simplify_map_eq | done]).
  destruct value as [v|]; simpl.
  - apply compact_lookup_defined; [by simplify_map_eq | done].
  - unfold compact. apply map_lookup_filter_None. right.
    intros v Hv. simplify_map_eq. by intros [].
Qed.

Lemma HiddenNode_inj (o1 o2 : Object) : HiddenNode o1 = HiddenNode o2 → o1 = o2.
Proof. intros H. by injection H. Qed.

Lemma SwitchFn_hidden props inst ctx :
  filter is_HiddenNode (SwitchFn useResolveButtonType props inst ctx)
  = match p_name props with
    | Some name =>
        if SwitchFn_checked props inst
        then [HiddenNode (hidden_props true name (p_value props))]
        else []
    | None => []
    end.
Proof.
  unfold SwitchFn, render. rewrite filter_app.
  destruct (p_name props) as [name|]; [|done].
  by destruct (SwitchFn_checked props inst).
Qed.

(** C6: the hidden input is rendered exactly when [name] is supplied and
    the Switch is checked.  It is then rendered once, as a hidden, read-only
    checkbox input that carries [name], [value] when one is given, and
    [checked = true]; it is never rendered with [checked = false]. *)
Theorem hidden_input_iff_named_and_checked props inst ctx :
  let out := SwitchFn useResolveButtonType props inst ctx in
  (∀ name, p_name props = Some name → SwitchFn_checked props inst = true →
     ∃ o, filter is_HiddenNode out = [HiddenNode o]
          ∧ o !! "as" = Some (JStr "input")
          ∧ o !! "type" = Some (JStr "checkbox")
          ∧ o !! "hidden" = Some (JBool true)
          ∧ o !! "readOnly" = Some (JBool true)
          ∧ o !! "checked" = Some (JBool true)
          ∧ o !! "name" = Some (JStr name)
          ∧ o !! "value" = JStr <$> p_value props)
  ∧ (p_name props = None ∨ SwitchFn_checked props inst = false →
     filter is_HiddenNode out = [])
  ∧ (∀ o, HiddenNode o ∈ out →
     o !! "checked" = Some (JBool true)
     ∧ SwitchFn_checked props inst = true ∧ is_Some (p_name props)).
Proof.
  intros out. subst out. split; [|split].
  - intros name Hn Hc. rewrite SwitchFn_hidden, Hn, Hc.
    eexists. split; [reflexivity|]. apply hidden_props_lookup.
  - rewrite SwitchFn_hidden. intros [-> | ->]; [reflexivity|].
    by destruct (p_name props).
  - intros o Hin.
    assert (HiddenNode o ∈ filter is_HiddenNode
              (SwitchFn useResolveButtonType props inst ctx)) as Hf
      by (apply list_elem_of_filter; split; [exact I | exact Hin]).
    rewrite SwitchFn_hidden in Hf.
    destruct (p_name props) as [name|]; [|by apply elem_of_nil in Hf].
    destruct (SwitchFn_checked props inst); [|by apply elem_of_nil in Hf].
    apply list_elem_of_singleton, HiddenNode_inj in Hf. subst o.
    split; [apply hidden_props_lookup|]. split; [reflexivity|by eexists].
Qed.

Lemma ourProps_lookup props inst ctx :
  let o := ourProps useResolveButtonType props inst ctx in
  o !! "role" = Some (JStr "switch")
  ∧ o !! "aria-checked" = Some (JBool (SwitchFn_checked props inst))
  ∧ o !! "aria-labelledby" = Some (of_optional (ctx ≫= labelledby))
  ∧ o !! "aria-describedby" = Some (of_optional (ctx ≫= describedby))
  ∧ o !! "tabIndex" = Some (JNum 0).
Proof.
  unfold ourProps. cbn [list_to_map foldr uncurry fst snd].
  repeat split; by simplify_map_eq.
Qed.

(** Every name the component controls is bound in [ourProps], to
    undefined when there is no value for it. *)
Lemma ourProps_binds_controlled props inst ctx k :
  k ∈ SwitchPropsWeControl →
  is_Some (ourProps useResolveButtonType props inst ctx !! k).
Proof.
  pose proof (ourProps_lookup props inst ctx) as (Hr & Hc & Hl & Hd & Ht).
  unfold SwitchPropsWeControl. intros Hk.
  repeat (apply elem_of_cons in Hk as [-> | Hk]; [by eexists|]).
  by apply elem_of_nil in Hk.
Qed.

(** C9: the element a Switch renders has [role = "switch"], [aria-checked]
    equal to the current checked value, [aria-labelledby] and
    [aria-describedby] from the enclosing Group (undefined without one) and
    [tabIndex = 0], whatever the caller passes in [theirProps]: each of the
    five names is bound by the computed props, and the merge of [render]
    keeps that binding over the caller's. *)
Theorem controlled_props_are_computed props inst ctx :
  ∃ tag o,
    filter (λ n, ¬ is_HiddenNode n) (SwitchFn useResolveButtonType props inst ctx)
    = [ElementNode tag o (SwitchFn_checked props inst)]
    ∧ o !! "role" = Some (JStr "switch")
    ∧ o !! "aria-checked" = Some (JBool (SwitchFn_checked props inst))
    ∧ o !! "aria-labelledby" = Some (of_optional (ctx ≫= labelledby))
    ∧ o !! "aria-describedby" = Some (of_optional (ctx ≫= describedby))
    ∧ o !! "tabIndex" = Some (JNum 0)
    ∧ ∀ k, k ∈ SwitchPropsWeControl →
        ∃ v, ourProps useResolveButtonType props inst ctx !! k = Some v
             ∧ o !! k = Some v.
Proof.
  pose proof (ourProps_lookup props inst ctx) as (Hr & Hc & Hl & Hd & Ht).
  unfold SwitchFn, render. do 2 eexists. split.
  { rewrite filter_app.
    destruct (p_name props); [destruct (SwitchFn_checked props inst)|]; done. }
  do 5 (split; [by apply lookup_union_Some_l|]).
  intros k Hk. destruct (ourProps_binds_controlled props inst ctx k Hk) as [v Hv].
  exists v. split; [exact Hv|]. by apply lookup_union_Some_l.
Qed.

End Rendered.

(** ** The definitions at concrete pages *)

(** Three clicks on an unchecked Uncontrolled Switch leave it checked, and
    the caller saw [true], [false], [true]. *)
Example three_clicks_run :
  dispatch_all disabled_attribute sample_Keys uncontrolled_props (uncontrolled_instance, [])
    (EvClick <$> three_clicks)
  = (uncontrolled_with uncontrolled_instance true, [true; false; true]).
Proof. reflexivity. Qed.

(** The caller's [role] does not reach the element; the hidden input is
    rendered because the Switch is named and checked. *)
Example controlled_render :
  ∃ hidden o,
    SwitchFn button_type controlled_props controlled_instance (Some sample_group)
    = [HiddenNode hidden; ElementNode "button" o true]
    ∧ o !! "role" = Some (JStr "switch")
    ∧ o !! "aria-labelledby" = Some (JStr "headlessui-label-2")
    ∧ o !! "aria-describedby" = Some JUndefined
    ∧ hidden !! "name" = Some (JStr "consent")
    ∧ hidden !! "value" = None.
Proof. do 2 eexists. split; [reflexivity|]. by vm_compute. Qed.

(** A Switch that mounts in a group registers its element; a click on the
    native label then reaches it once. *)
Example mount_then_label_click :
  let g := group_run empty_group (switchRef (Some empty_group) switch_button) in
  switch g = Some switch_button
  ∧ Label_htmlFor g = Some "headlessui-switch-1"
  ∧ Label_onClick (switch g) (click_on native_label)
    = [PreventDefault; Click switch_button; Focus switch_button true]
  ∧ deliver disabled_attribute sample_Keys uncontrolled_props (uncontrolled_instance, [])
      (Label_onClick (switch g) (click_on native_label))
    = (uncontrolled_with uncontrolled_instance true, [true]).
Proof. by repeat split. Qed.

(** C1, at three clicks. *)
Lemma uncontrolled_clicks_parity_witness :
  p_checked uncontrolled_props = None
  ∧ defaultChecked uncontrolled_props = Some false
  ∧ Forall (λ e, disabled_attribute (currentTarget e) = false) three_clicks
  ∧ SwitchFn_checked uncontrolled_props
      (dispatch_all disabled_attribute sample_Keys uncontrolled_props
         (SwitchFn_mount uncontrolled_props "1", []) (EvClick <$> three_clicks)).1
    = Nat.odd (length three_clicks).
Proof.
  assert (Hall : Forall (λ e, disabled_attribute (currentTarget e) = false) three_clicks)
    by (repeat constructor).
  split; [reflexivity|]. split; [reflexivity|]. split; [exact Hall|].
  exact (proj1 (uncontrolled_clicks_parity disabled_attribute sample_Keys uncontrolled_props
                  "1" [] three_clicks eq_refl eq_refl Hall)).
Defined.

(** C2 as stated fails: a click on a Controlled Switch whose element is
    judged disabled calls [onChange] not once but never. *)
Lemma controlled_click_on_disabled_target :
  p_checked controlled_props = Some true
  ∧ ownership (controllable controlled_instance) = Controlled
  ∧ onChange_calls
      (handler disabled_attribute sample_Keys controlled_props controlled_instance
         (EvClick (click_on disabled_button))) = []
  ∧ onChange_calls
      (handler disabled_attribute sample_Keys controlled_props controlled_instance
         (EvClick (click_on disabled_button))) ≠ [negb true]
  ∧ dispatch disabled_attribute sample_Keys controlled_props (controlled_instance, [])
      (EvClick (click_on disabled_button)) = (controlled_instance, []).
Proof. by repeat split. Qed.

(** C2, amended, at a click on an enabled Controlled Switch. *)
Lemma controlled_click_witness :
  p_checked controlled_props = Some true
  ∧ ownership (controllable controlled_instance) = Controlled
  ∧ disabled_attribute (currentTarget (click_on switch_button)) = false
  ∧ onChange_calls
      (handler disabled_attribute sample_Keys controlled_props controlled_instance
         (EvClick (click_on switch_button))) = [negb true]
  ∧ dispatch disabled_attribute sample_Keys controlled_props (controlled_instance, [])
      (EvClick (click_on switch_button)) = (controlled_instance, [false]).
Proof.
  pose proof (controlled_click disabled_attribute sample_Keys controlled_props
                controlled_instance [] (click_on switch_button) true
                eq_refl eq_refl eq_refl) as (Hcalls & Hstep & _).
  split; [reflexivity|]. split; [reflexivity|]. split; [reflexivity|].
  split; [exact Hcalls | exact Hstep].
Defined.

(** C3, at a Space and at an Enter key-up event. *)
Lemma keyUp_space_toggles_enter_submits_witness :
  Space sample_Keys ≠ Enter sample_Keys
  ∧ key space_up = Space sample_Keys
  ∧ key enter_up = Enter sample_Keys
  ∧ handler disabled_attribute sample_Keys uncontrolled_props uncontrolled_instance (EvKeyUp space_up)
    = [PreventDefault; OnChange (negb (SwitchFn_checked uncontrolled_props uncontrolled_instance))]
  ∧ handler disabled_attribute sample_Keys uncontrolled_props uncontrolled_instance (EvKeyUp enter_up)
    = [AttemptSubmit (key_currentTarget enter_up)].
Proof.
  assert (Hne : Space sample_Keys ≠ Enter sample_Keys) by discriminate.
  pose proof (keyUp_space_toggles_enter_submits disabled_attribute sample_Keys uncontrolled_props
                (uncontrolled_instance, []) space_up Hne) as (Hspace & _ & _).
  pose proof (keyUp_space_toggles_enter_submits disabled_attribute sample_Keys uncontrolled_props
                (uncontrolled_instance, []) enter_up Hne) as (_ & Henter & _).
  split; [exact Hne|]. split; [reflexivity|]. split; [reflexivity|].
  split; [exact (proj1 (Hspace eq_refl)) | exact (proj1 (Henter eq_refl))].
Defined.

(** C4: a Switch that was never given [defaultChecked] still has its reset
    listener registered, and a reset calls [onChange(false)]. *)
Theorem reset_without_defaultChecked_calls_onChange :
  p_defaultChecked controlled_props = None
  ∧ reset_listener controlled_props (Some switch_button) = Some [OnChange false]
  ∧ dispatch disabled_attribute sample_Keys controlled_props (controlled_instance, [])
      (EvReset (Some switch_button))
    = (controlled_instance, [false]).
Proof. by repeat split. Qed.

(** C5 as stated fails: a label that is not a native [LABEL] element keeps
    its default action; it is the native one whose default is prevented. *)
Lemma label_click_span_keeps_default :
  tagName (currentTarget (click_on span_label)) ≠ "LABEL"
  ∧ (PreventDefault ∉ Label_onClick (Some switch_button) (click_on span_label))
  ∧ PreventDefault ∈ Label_onClick (Some switch_button) (click_on native_label).
Proof.
  split; [discriminate|]. split.
  - rewrite Label_onClick_prevents. discriminate.
  - by rewrite Label_onClick_prevents.
Qed.

(** C5, amended, at a native label and an enabled Switch. *)
Lemma label_click_forwards_once_witness :
  disabled_attribute switch_button = false
  ∧ PreventDefault ∈ Label_onClick (Some switch_button) (click_on native_label)
  ∧ filter is_Click (Label_onClick (Some switch_button) (click_on native_label))
    = [Click switch_button]
  ∧ onChange_calls
      (handler disabled_attribute sample_Keys uncontrolled_props uncontrolled_instance
         (EvClick (click_on switch_button)))
    = [negb (SwitchFn_checked uncontrolled_props uncontrolled_instance)].
Proof.
  pose proof (label_click_forwards_once disabled_attribute sample_Keys uncontrolled_props
                (uncontrolled_instance, []) switch_button (click_on native_label))
    as (Hprev & Hclick & _ & _ & Htoggle).
  split; [reflexivity|]. split; [by apply Hprev|]. split; [exact Hclick|].
  exact (Htoggle eq_refl).
Defined.

(** C7, at a click on a disabled button. *)
Lemma disabled_click_swallowed_witness :
  disabled_attribute (currentTarget (click_on disabled_button)) = true
  ∧ dispatch disabled_attribute sample_Keys uncontrolled_props (uncontrolled_instance, [])
      (EvClick (click_on disabled_button))
    = (uncontrolled_instance, []).
Proof.
  split; [reflexivity|].
  exact (proj2 (proj2 (disabled_click_swallowed disabled_attribute sample_Keys uncontrolled_props
                         (uncontrolled_instance, []) (click_on disabled_button) eq_refl))).
Defined.

(** C8, at a group in which no Switch has mounted. *)
Lemma label_click_without_switch_witness :
  switch empty_group = None
  ∧ Label_onClick (switch empty_group) (click_on native_label) = []
  ∧ group_run empty_group (Label_onClick (switch empty_group) (click_on native_label))
    = empty_group.
Proof.
  pose proof (label_click_without_switch disabled_attribute sample_Keys empty_group
                uncontrolled_props (uncontrolled_instance, []) (click_on native_label)
                eq_refl) as (Hnil & Hgroup & _).
  split; [reflexivity|]. split; [exact Hnil | exact Hgroup].
Defined.

(** C6, at a named, checked Switch. *)
Lemma hidden_input_iff_named_and_checked_witness :
  p_name controlled_props = Some "consent"
  ∧ SwitchFn_checked controlled_props controlled_instance = true
  ∧ ∃ o, filter is_HiddenNode
           (SwitchFn button_type controlled_props controlled_instance (Some sample_group))
         = [HiddenNode o]
         ∧ o !! "name" = Some (JStr "consent")
         ∧ o !! "checked" = Some (JBool true).
Proof.
  pose proof (hidden_input_iff_named_and_checked button_type controlled_props
                controlled_instance (Some sample_group)) as [Hshown _].
  destruct (Hshown "consent" eq_refl eq_refl)
    as (o & Hout & _ & _ & _ & _ & Hchecked & Hname & _).
  split; [reflexivity|]. split; [reflexivity|].
  exists o. split; [exact Hout|]. split; [exact Hname | exact Hchecked].
Defined.

(** C9, at a caller who passes [role="button"]. *)
Lemma controlled_props_are_computed_witness :
  "role" ∈ SwitchPropsWeControl
  ∧ p_theirProps controlled_props !! "role" = Some (JStr "button")
  ∧ ∃ tag o,
      filter (λ n, ¬ is_HiddenNode n)
        (SwitchFn button_type controlled_props controlled_instance (Some sample_group))
      = [ElementNode tag o true]
      ∧ o !! "role" = Some (JStr "switch")
      ∧ o !! "role"
        = ourProps button_type controlled_props controlled_instance (Some sample_group)
          !! "role".
Proof.
  assert (Hin : "role" ∈ SwitchPropsWeControl) by (by vm_compute; set_solver).
  destruct (controlled_props_are_computed button_type controlled_props
              controlled_instance (Some sample_group))
    as (tag & o & Hout & Hrole & _ & _ & _ & _ & Hall).
  split; [exact Hin|]. split; [reflexivity|].
  destruct (Hall "role" Hin) as (v & Hours & Ho).
  exists tag, o. split; [exact Hout|]. split; [exact Hrole|].
  exact (eq_trans Ho (eq_sym Hours)).
Defined.

(** ** Runs of events *)

Section SwitchRuns.

Context {W : Type}.
Variable isDisabledReactIssue7711 : Element → bool.
Variable Keys : KeysT.

Implicit Types (props : SwitchProps W) (inst : SwitchInstance) (w : W)
  (ev : SwitchEvent) (evs : list SwitchEvent).

(** One event on an Uncontrolled instance moves it as the automaton says. *)
Lemma dispatch_uncontrolled_automaton props inst v w ev :
  (dispatch isDisabledReactIssue7711 Keys props (uncontrolled_with inst v, w) ev).1
  = uncontrolled_with inst
      (switch_automaton isDisabledReactIssue7711 Keys
         (default false (p_defaultChecked props)) v ev).
Proof.
  destruct ev as [e|e|e|r]; unfold dispatch, handler; cbn [fst switch_automaton].
  - unfold handleClick. by destruct (isDisabledReactIssue7711 _).
  - unfold handleKeyUp. destruct (String.eqb (key e) (Space Keys)); [done|].
    by destruct (String.eqb (key e) (Enter Keys)).
  - done.
  - unfold reset_listener, defaultChecked.
    destruct (r ≫= el_form); [|done]. by destruct (p_defaultChecked props).
Qed.

Lemma dispatch_all_uncontrolled_automaton props inst evs : ∀ v w,
  (dispatch_all isDisabledReactIssue7711 Keys props (uncontrolled_with inst v, w) evs).1
  = uncontrolled_with inst
      (foldl (switch_automaton isDisabledReactIssue7711 Keys
                (default false (p_defaultChecked props))) v evs).
Proof.
  induction evs as [|ev evs IH]; intros v w; [done|].
  unfold dispatch_all in *. cbn [foldl].
  pose proof (dispatch_uncontrolled_automaton props inst v w ev) as Hstep.
  destruct (dispatch _ _ _ _ ev) as [inst' w']. cbn [fst] in Hstep. subst inst'.
  apply IH.
Qed.

(** X1: an Uncontrolled Switch is the two-state machine: whatever the
    events, what it shows is the fold of [switch_automaton] over them,
    started at the default. *)
Theorem uncontrolled_is_automaton props i w evs :
  p_checked props = None →
  SwitchFn_checked props
    (dispatch_all isDisabledReactIssue7711 Keys props (SwitchFn_mount props i, w) evs).1
  = foldl (switch_automaton isDisabledReactIssue7711 Keys
             (default false (p_defaultChecked props)))
      (default false (p_defaultChecked props)) evs.
Proof.
  intros Hc. rewrite SwitchFn_mount_uncontrolled by done.
  rewrite dispatch_all_uncontrolled_automaton, SwitchFn_checked_uncontrolled by done.
  unfold defaultChecked. by destruct (p_defaultChecked props).
Qed.

(** X2: whatever happened before, the reset of the enclosing form puts an
    Uncontrolled Switch back to its default ([false] when none was given). *)
Theorem reset_restores_default props i w evs el f :
  p_checked props = None →
  el_form el = Some f →
  SwitchFn_checked props
    (dispatch_all isDisabledReactIssue7711 Keys props (SwitchFn_mount props i, w)
       (evs ++ [EvReset (Some el)])).1
  = default false (p_defaultChecked props).
Proof.
  intros Hc Hf. rewrite SwitchFn_mount_uncontrolled by done.
  rewrite dispatch_all_uncontrolled_automaton, SwitchFn_checked_uncontrolled by done.
  rewrite foldl_app. simpl. by rewrite Hf.
Qed.

(** X3: without an enclosing form, or before the element is attached, no
    reset listener is registered and a reset changes nothing. *)
Theorem reset_outside_form_noop props (st : SwitchInstance * W) r :
  r ≫= el_form = None →
  reset_listener props r = None
  ∧ dispatch isDisabledReactIssue7711 Keys props st (EvReset r) = st.
Proof.
  intros Hr. unfold dispatch, handler, reset_listener. rewrite Hr. by destruct st.
Qed.

(** X4: a key-up of any key but Space and Enter is left alone: nothing is
    prevented, toggled or submitted. *)
Theorem keyUp_other_key_noop props (st : SwitchInstance * W) e :
  key e ≠ Space Keys →
  key e ≠ Enter Keys →
  handler isDisabledReactIssue7711 Keys props st.1 (EvKeyUp e) = []
  ∧ dispatch isDisabledReactIssue7711 Keys props st (EvKeyUp e) = st.
Proof.
  intros Hs%String.eqb_neq He%String.eqb_neq.
  unfold dispatch, handler, handleKeyUp. rewrite Hs, He. by destruct st.
Qed.

(** The caller's world after a run of values handed to its [onChange]. *)
Lemma dispatch_all_clicks_world props inst clicks : ∀ v w,
  p_checked props = None →
  Forall (λ e, isDisabledReactIssue7711 (currentTarget e) = false) clicks →
  (dispatch_all isDisabledReactIssue7711 Keys props (uncontrolled_with inst v, w)
     (EvClick <$> clicks)).2
  = foldl (λ w b, call_optional (p_onChange props) b w) w
      (alternate (negb v) (length clicks)).
Proof.
  induction clicks as [|e clicks IH]; intros v w Hc Hall; [done|].
  apply Forall_cons in Hall as [He Hall].
  cbn [fmap list_fmap length alternate]. unfold dispatch_all in *. cbn [foldl].
  rewrite dispatch_click_uncontrolled by done.
  by rewrite IH.
Qed.

(** X5: N clicks, none judged disabled, on an Uncontrolled Switch call the
    caller's [onChange] N times, in order, with [!d], [d], [!d], ... where
    [d] is the default. *)
Theorem uncontrolled_clicks_caller_log props i w (clicks : list MouseEvent) :
  p_checked props = None →
  Forall (λ e, isDisabledReactIssue7711 (currentTarget e) = false) clicks →
  (dispatch_all isDisabledReactIssue7711 Keys props (SwitchFn_mount props i, w)
     (EvClick <$> clicks)).2
  = foldl (λ w b, call_optional (p_onChange props) b w) w
      (alternate (negb (default false (p_defaultChecked props))) (length clicks)).
Proof.
  intros Hc Hall. rewrite SwitchFn_mount_uncontrolled by done.
  rewrite dispatch_all_clicks_world by done.
  unfold defaultChecked. by destruct (p_defaultChecked props).
Qed.

(** A click that is not judged disabled, on a Controlled instance. *)
Lemma dispatch_click_controlled props inst w e c :
  p_checked props = Some c →
  ownership (controllable inst) = Controlled →
  isDisabledReactIssue7711 (currentTarget e) = false →
  dispatch isDisabledReactIssue7711 Keys props (inst, w) (EvClick e)
  = (inst, call_optional (p_onChange props) (negb c) w).
Proof. intros Hc Ho Hd. step_event. by destruct inst. Qed.

(** X6: a Controlled Switch whose caller stores what [onChange] hands it
    and renders [checked] from that store shows, after N clicks none judged
    disabled, the initial value flipped N times; the instance itself never
    changes. *)
Theorem controlled_echo_parity (view : W → SwitchProps W) (get : W → bool)
    (set : bool → W → W) inst (clicks : list MouseEvent) : ∀ w,
  (∀ w, p_checked (view w) = Some (get w)) →
  (∀ w, p_onChange (view w) = Some set) →
  (∀ v w, get (set v w) = v) →
  ownership (controllable inst) = Controlled →
  Forall (λ e, isDisabledReactIssue7711 (currentTarget e) = false) clicks →
  let st' := foldl (dispatch_rendered isDisabledReactIssue7711 Keys view) (inst, w)
               (EvClick <$> clicks) in
  st'.1 = inst
  ∧ SwitchFn_checked (view st'.2) st'.1 = xorb (get w) (Nat.odd (length clicks)).
Proof.
  induction clicks as [|e clicks IH]; intros w Hget Hset Hecho Ho Hall;
    cbv zeta in *.
  - simpl. split; [done|].
    unfold SwitchFn_checked, useControllable_value.
    by rewrite Ho, Hget, xorb_false_r.
  - apply Forall_cons in Hall as [He Hall].
    assert (Hstep : dispatch_rendered isDisabledReactIssue7711 Keys view (inst, w)
                      (EvClick e) = (inst, set (negb (get w)) w)).
    { unfold dispatch_rendered. cbn [snd].
      rewrite (dispatch_click_controlled _ _ _ _ (get w)) by done.
      by rewrite Hset. }
    cbn [fmap list_fmap length foldl]. rewrite Hstep.
    destruct (IH (set (negb (get w)) w) Hget Hset Hecho Ho Hall) as [Hinst Hval].
    split; [exact Hinst|]. etrans; [exact Hval|].
    rewrite Hecho, Nat.odd_succ, <- Nat.negb_odd.
    by destruct (get w), (Nat.odd (length clicks)).
Qed.

(** X9: a user event (click, key up, key press) calls [onChange] at most
    once, only with [!checked] and only after the default action was
    prevented; its handler never clicks or focuses an element and never
    registers one with the group. *)
Theorem user_event_effects props inst ev :
  (∀ r, ev ≠ EvReset r) →
  let effs := handler isDisabledReactIssue7711 Keys props inst ev in
  (onChange_calls effs = [] ∨ onChange_calls effs = [negb (SwitchFn_checked props inst)])
  ∧ (onChange_calls effs ≠ [] → head effs = Some PreventDefault)
  ∧ filter is_Click effs = []
  ∧ filter is_Focus effs = []
  ∧ filter is_SetSwitch effs = [].
Proof.
  intros Hev effs. subst effs.
  assert (Hshape :
    ∀ effs : list Effect,
      effs = [] ∨ effs = [PreventDefault]
      ∨ effs = [PreventDefault; OnChange (negb (SwitchFn_checked props inst))]
      ∨ (∃ el, effs = [AttemptSubmit el]) →
      (onChange_calls effs = []
       ∨ onChange_calls effs = [negb (SwitchFn_checked props inst)])
      ∧ (onChange_calls effs ≠ [] → head effs = Some PreventDefault)
      ∧ filter is_Click effs = []
      ∧ filter is_Focus effs = []
      ∧ filter is_SetSwitch effs = []).
  { intros effs [-> | [-> | [-> | [el ->]]]]; simpl;
      (split; [by auto|]); (split; [|done]); by intros. }
  apply Hshape.
  destruct ev as [e|e|e|r]; [| | |by destruct (Hev r)]; unfold handler.
  - unfold handleClick, toggle. destruct (isDisabledReactIssue7711 _); simpl; auto.
  - unfold handleKeyUp, toggle.
    destruct (String.eqb (key e) (Space Keys)); [simpl; by auto|].
    destruct (String.eqb (key e) (Enter Keys)); simpl; eauto 6.
  - simpl; auto.
Qed.

End SwitchRuns.

(** ** Identifiers and registration *)

Section Identity.

Context {W : Type}.
Variable isDisabledReactIssue7711 : Element → bool.
Variable Keys : KeysT.

Implicit Types (props : SwitchProps W) (inst : SwitchInstance).

(** X10: a caller's [id] is used as it is; without one the identifier is
    generated from [useId], and two instances get the same generated
    identifier only if [useId] gave them the same value. *)
Theorem SwitchFn_id_supplied_or_generated props inst1 inst2 :
  (∀ i, p_id props = Some i → SwitchFn_id props inst1 = i)
  ∧ (p_id props = None →
     SwitchFn_id props inst1 = "headlessui-switch-" ++ internalId inst1
     ∧ (SwitchFn_id props inst1 = SwitchFn_id props inst2 →
        internalId inst1 = internalId inst2)).
Proof.
  unfold SwitchFn_id. split.
  - by intros i ->.
  - intros ->. split; [done|]. simpl. intros H. by simplify_eq.
Qed.


(** X12: a Switch that attaches its element inside a Group is the one the
    label points at and clicks: [htmlFor] is the element's id and a label
    click clicks and focuses that element.  Outside a Group the ref callback
    registers nothing. *)
Theorem switch_registers_for_label (ctx g : StateDefinition) el ev :
  let g' := group_run g (switchRef (Some ctx) el) in
  switch g' = Some el
  ∧ Label_htmlFor g' = Some (el_id el)
  ∧ filter is_Click (Label_onClick (switch g') ev) = [Click el]
  ∧ filter is_Focus (Label_onClick (switch g') ev) = [Focus el true]
  ∧ group_run g (switchRef None el) = g.
Proof.
  simpl. repeat split; unfold Label_onClick; simpl;
    by destruct (String.eqb (tagName (currentTarget ev)) "LABEL").
Qed.


End Identity.

(** ** The hidden input over a run *)

Section FormValue.

Context {W : Type}.
Variable isDisabledReactIssue7711 : Element → bool.
Variable Keys : KeysT.
Variable useResolveButtonType : SwitchProps W → option string.

(** X14: the hidden input of a named Uncontrolled Switch follows its
    events: after any run it is rendered, once and checked, exactly when the
    two-state machine ends on; a form then submits the name only while the
    Switch is on. *)
Theorem hidden_input_follows_events (props : SwitchProps W) i (w : W) evs ctx name :
  p_checked props = None →
  p_name props = Some name →
  filter is_HiddenNode
    (SwitchFn useResolveButtonType props
       (dispatch_all isDisabledReactIssue7711 Keys props (SwitchFn_mount props i, w) evs).1
       ctx)
  = if foldl (switch_automaton isDisabledReactIssue7711 Keys
                (default false (p_defaultChecked props)))
         (default false (p_defaultChecked props)) evs
    then [HiddenNode (hidden_props true name (p_value props))]
    else [].
Proof.
  intros Hc Hn. rewrite SwitchFn_hidden, Hn.
  rewrite SwitchFn_mount_uncontrolled by done.
  rewrite dispatch_all_uncontrolled_automaton, SwitchFn_checked_uncontrolled by done.
  unfold defaultChecked. by destruct (p_defaultChecked props).
Qed.

End FormValue.

(** ** The runs at concrete pages *)

(** A click, a Space, a key press, an Enter, a disabled click, a Space and
    a reset outside any form: three toggles, so the Switch ends checked and
    the caller saw [true], [false], [true]. *)
Example mixed_events_run :
  dispatch_all disabled_attribute sample_Keys uncontrolled_props
    (uncontrolled_instance, []) mixed_events
  = (uncontrolled_with uncontrolled_instance true, [true; false; true])
  ∧ foldl (switch_automaton disabled_attribute sample_Keys false) false mixed_events
    = true.
Proof. by split. Qed.

(** X1, at the mixed run. *)
Lemma uncontrolled_is_automaton_witness :
  p_checked uncontrolled_props = None
  ∧ SwitchFn_checked uncontrolled_props
      (dispatch_all disabled_attribute sample_Keys uncontrolled_props
         (SwitchFn_mount uncontrolled_props "1", []) mixed_events).1
    = foldl (switch_automaton disabled_attribute sample_Keys
               (default false (p_defaultChecked uncontrolled_props)))
        (default false (p_defaultChecked uncontrolled_props)) mixed_events.
Proof.
  split; [reflexivity|].
  exact (uncontrolled_is_automaton disabled_attribute sample_Keys uncontrolled_props
           "1" [] mixed_events eq_refl).
Defined.

(** X2, at a reset after three clicks. *)
Lemma reset_restores_default_witness :
  p_checked uncontrolled_props = None
  ∧ el_form switch_button = Some "signup"
  ∧ SwitchFn_checked uncontrolled_props
      (dispatch_all disabled_attribute sample_Keys uncontrolled_props
         (SwitchFn_mount uncontrolled_props "1", [])
         ((EvClick <$> three_clicks) ++ [EvReset (Some switch_button)])).1
    = default false (p_defaultChecked uncontrolled_props).
Proof.
  split; [reflexivity|]. split; [reflexivity|].
  exact (reset_restores_default disabled_attribute sample_Keys uncontrolled_props
           "1" [] (EvClick <$> three_clicks) switch_button "signup" eq_refl eq_refl).
Defined.

(** X3, at a button outside any form. *)
Lemma reset_outside_form_noop_witness :
  Some loose_button ≫= el_form = None
  ∧ reset_listener uncontrolled_props (Some loose_button) = None
  ∧ dispatch disabled_attribute sample_Keys uncontrolled_props
      (uncontrolled_instance, []) (EvReset (Some loose_button))
    = (uncontrolled_instance, []).
Proof.
  split; [reflexivity|].
  exact (reset_outside_form_noop disabled_attribute sample_Keys uncontrolled_props
           (uncontrolled_instance, []) (Some loose_button) eq_refl).
Defined.

(** X4, at the Tab key. *)
Lemma keyUp_other_key_noop_witness :
  key tab_up ≠ Space sample_Keys
  ∧ key tab_up ≠ Enter sample_Keys
  ∧ handler disabled_attribute sample_Keys uncontrolled_props uncontrolled_instance
      (EvKeyUp tab_up) = [].
Proof.
  assert (Hs : key tab_up ≠ Space sample_Keys) by discriminate.
  assert (He : key tab_up ≠ Enter sample_Keys) by discriminate.
  split; [exact Hs|]. split; [exact He|].
  exact (proj1 (keyUp_other_key_noop disabled_attribute sample_Keys uncontrolled_props
                  (uncontrolled_instance, []) tab_up Hs He)).
Defined.

(** X5, at three clicks. *)
Lemma uncontrolled_clicks_caller_log_witness :
  p_checked uncontrolled_props = None
  ∧ Forall (λ e, disabled_attribute (currentTarget e) = false) three_clicks
  ∧ (dispatch_all disabled_attribute sample_Keys uncontrolled_props
       (SwitchFn_mount uncontrolled_props "1", []) (EvClick <$> three_clicks)).2
    = foldl (λ w b, call_optional (p_onChange uncontrolled_props) b w) []
        (alternate (negb (default false (p_defaultChecked uncontrolled_props)))
           (length three_clicks)).
Proof.
  assert (Hall : Forall (λ e, disabled_attribute (currentTarget e) = false) three_clicks)
    by (repeat constructor).
  split; [reflexivity|]. split; [exact Hall|].
  exact (uncontrolled_clicks_caller_log disabled_attribute sample_Keys
           uncontrolled_props "1" [] three_clicks eq_refl Hall).
Defined.

(** X6, at a caller that keeps the value in a [useState]. *)
Lemma controlled_echo_parity_witness :
  ownership (controllable (SwitchFn_mount (echo_view false) "1")) = Controlled
  ∧ Forall (λ e, disabled_attribute (currentTarget e) = false) three_clicks
  ∧ SwitchFn_checked
      (echo_view
         (foldl (dispatch_rendered disabled_attribute sample_Keys echo_view)
            (SwitchFn_mount (echo_view false) "1", false) (EvClick <$> three_clicks)).2)
      (foldl (dispatch_rendered disabled_attribute sample_Keys echo_view)
         (SwitchFn_mount (echo_view false) "1", false) (EvClick <$> three_clicks)).1
    = xorb false (Nat.odd (length three_clicks)).
Proof.
  assert (Hall : Forall (λ e, disabled_attribute (currentTarget e) = false) three_clicks)
    by (repeat constructor).
  split; [reflexivity|]. split; [exact Hall|].
  exact (proj2 (controlled_echo_parity disabled_attribute sample_Keys echo_view
                  (λ on, on) (λ v _, v) (SwitchFn_mount (echo_view false) "1")
                  three_clicks false
                  (λ _, eq_refl) (λ _, eq_refl) (λ _ _, eq_refl) eq_refl Hall)).
Defined.

(** X9, at a click. *)
Lemma user_event_effects_witness :
  (∀ r, EvClick (click_on switch_button) ≠ EvReset r)
  ∧ filter is_Click
      (handler disabled_attribute sample_Keys uncontrolled_props uncontrolled_instance
         (EvClick (click_on switch_button))) = []
  ∧ head
      (handler disabled_attribute sample_Keys uncontrolled_props uncontrolled_instance
         (EvClick (click_on switch_button))) = Some PreventDefault.
Proof.
  assert (Hev : ∀ r, EvClick (click_on switch_button) ≠ EvReset r) by discriminate.
  destruct (user_event_effects disabled_attribute sample_Keys uncontrolled_props
              uncontrolled_instance (EvClick (click_on switch_button)) Hev)
    as (_ & Hhead & Hclick & _).
  split; [exact Hev|]. split; [exact Hclick|].
  apply Hhead. discriminate.
Defined.

(** X10, at a supplied and at a generated identifier. *)
Lemma SwitchFn_id_supplied_or_generated_witness :
  p_id silent_props = Some "mute"
  ∧ p_id uncontrolled_props = None
  ∧ SwitchFn_id silent_props uncontrolled_instance = "mute"
  ∧ SwitchFn_id uncontrolled_props uncontrolled_instance
    = "headlessui-switch-" ++ internalId uncontrolled_instance.
Proof.
  split; [reflexivity|]. split; [reflexivity|]. split.
  - exact (proj1 (SwitchFn_id_supplied_or_generated silent_props uncontrolled_instance
                    uncontrolled_instance) "mute" eq_refl).
  - exact (proj1 (proj2 (SwitchFn_id_supplied_or_generated uncontrolled_props
                           uncontrolled_instance uncontrolled_instance) eq_refl)).
Defined.

(** X14, at the mixed run of a Switch named [consent]. *)
Lemma hidden_input_follows_events_witness :
  p_checked uncontrolled_props = None
  ∧ p_name uncontrolled_props = Some "consent"
  ∧ filter is_HiddenNode
      (SwitchFn button_type uncontrolled_props
         (dispatch_all disabled_attribute sample_Keys uncontrolled_props
            (SwitchFn_mount uncontrolled_props "1", []) mixed_events).1
         None)
    = if foldl (switch_automaton disabled_attribute sample_Keys
                  (default false (p_defaultChecked uncontrolled_props)))
           (default false (p_defaultChecked uncontrolled_props)) mixed_events
      then [HiddenNode (hidden_props true "consent" (p_value uncontrolled_props))]
      else [].
Proof.
  split; [reflexivity|]. split; [reflexivity|].
  exact (hidden_input_follows_events disabled_attribute sample_Keys button_type
           uncontrolled_props "1" [] mixed_events None "consent" eq_refl eq_refl).
Defined.
